(* ===================================================================== *)
(* pyod.models.mcd : outlier detection with the Minimum Covariance        *)
(* Determinant estimator.  A shallow embedding of the MCD facade          *)
(* (src/pyod/models/mcd.py) and of the collaborators it delegates to,     *)
(* followed by the properties established for it.                         *)
(* ===================================================================== *)

From HB Require Import structures.
From mathcomp Require Import ssreflect ssrfun ssrbool eqtype ssrnat div seq path.
From mathcomp Require Import choice bigop fintype order ssralg ssrnum ssrint.
From mathcomp Require Import rat matrix archimedean.

Set Implicit Arguments.
Unset Strict Implicit.
Unset Printing Implicit Defensive.

Import Order.TTheory GRing.Theory Num.Theory.
Local Open Scope ring_scope.

(* --------------------------------------------------------------------- *)
(* Exceptions                                                             *)
(* --------------------------------------------------------------------- *)

(* Attributes that methods of this module look up on an object. *)
Inductive attr :=
  | a_detector_ | a_decision_scores_ | a_threshold_ | a_labels_
  | a_raw_location_ | a_raw_covariance_ | a_raw_support_
  | a_location_ | a_covariance_ | a_precision_ | a_support_ | a_dist_.

(* The exceptions a caller can observe.  [NotFitted] is sklearn's
   NotFittedError, raised by check_is_fitted; [AttributeError a] is what
   Python raises when attribute [a] is looked up on an object that does not
   have it.  The others follow the error taxonomy of the estimator. *)
Inductive exn :=
  | InvalidParameter
  | InvalidInput
  | SingularMatrix
  | DimensionMismatch
  | NotFitted
  | AttributeError of attr.

Definition result (A : Type) : Type := (exn + A)%type.

Definition is_ok {A : Type} (r : result A) : bool :=
  if r is inr _ then true else false.

(* --------------------------------------------------------------------- *)
(* Numeric arrays                                                         *)
(* --------------------------------------------------------------------- *)

Section Arrays.

Variable R : archiRealFieldType.

(* One entry of an array-like argument: a finite number, one of the three
   non-finite floating point values, or something that is not a number. *)
Inductive cell :=
  | Num of R
  | NaN
  | PosInf
  | NegInf
  | Obj.

(* What a caller may pass for X: a bare scalar or nested Python lists of
   depth one, two or three. *)
Inductive array_like :=
  | Scalar of cell
  | List1 of seq cell
  | List2 of seq (seq cell)
  | List3 of seq (seq (seq cell)).

(* A validated 2D array: the rows, all of one length. *)
Definition ndarray := seq (seq R).

Definition n_samples (X : ndarray) : nat := size X.
Definition n_features (X : ndarray) : nat := size (head [::] X).

Definition is_finite (c : cell) : bool := if c is Num _ then true else false.
Definition cell_val (c : cell) : R := if c is Num x then x else 0.

Definition ndim (X : array_like) : nat :=
  match X with Scalar _ => 0 | List1 _ => 1 | List2 _ => 2 | List3 _ => 3 end.

Definition rectangular (rows : seq (seq cell)) : bool :=
  all (fun r => size r == size (head [::] rows)) rows.

(** Modelled from the spec: check_array is sklearn's input validator and is
    not part of src/.  Section 4.4: "validates X is a 2D numeric array with
    no NaN/Inf (InvalidInput otherwise)".  A nested list is a 2D array when
    it has depth two, at least one row, at least one column and rows of
    equal length; the validated array holds the numbers of the input. *)
Definition check_array (X : array_like) : result ndarray :=
  if X is List2 rows then
    if (0 < size rows)%N && (0 < size (head [::] rows))%N && rectangular rows
       && all (all is_finite) rows
    then inr [seq [seq cell_val c | c <- r] | r <- rows]
    else inl InvalidInput
  else inl InvalidInput.

(* All entries of an array-like argument. *)
Definition cells (X : array_like) : seq cell :=
  match X with
  | Scalar c => [:: c]
  | List1 l => l
  | List2 l => flatten l
  | List3 l => flatten (flatten l)
  end.

(* The array-like that an already validated array denotes. *)
Definition as_array_like (X : ndarray) : array_like :=
  List2 [seq [seq Num x | x <- r] | r <- X].

(* --------------------------------------------------------------------- *)
(* MahalanobisScorer                                                      *)
(* --------------------------------------------------------------------- *)

Definition dot (x y : seq R) : R :=
  foldr (fun p acc => p.1 * p.2 + acc) 0 (zip x y).

Definition vsub (x y : seq R) : seq R := [seq p.1 - p.2 | p <- zip x y].

(* P . d for a matrix given by its rows. *)
Definition mulmv (P : seq (seq R)) (d : seq R) : seq R :=
  [seq dot row d | row <- P].

(* (x - location)^T . precision . (x - location) *)
Definition sq_mahalanobis (location : seq R) (precision : seq (seq R))
    (x : seq R) : R :=
  let d := vsub x location in dot d (mulmv precision d).

(** Modelled from the spec: the scorer is sklearn's MinCovDet.mahalanobis and
    is not part of src/.  Section 4.2: "score(points, location, precision)
    -> sequence of f64, one per point: (x - location)^T . precision .
    (x - location) ... Errors with DimensionMismatch if point dimensionality
    differs from len(location)". *)
Definition score (points : ndarray) (location : seq R)
    (precision : seq (seq R)) : result (seq R) :=
  if all (fun x => size x == size location) points
  then inr [seq sq_mahalanobis location precision x | x <- points]
  else inl DimensionMismatch.

(* --------------------------------------------------------------------- *)
(* ThresholdingLayer                                                      *)
(* --------------------------------------------------------------------- *)

(* The rank (counted from 1) of the order statistic used as threshold:
   ceil (n * (1 - contamination)). *)
Definition threshold_rank (n : nat) (contamination : R) : nat :=
  `|Num.ceil (n%:R * (1 - contamination))|%N.

Definition valid_contamination (c : R) : bool := (0 < c) && (c < 2^-1).

Definition apply_threshold (scores : seq R) (threshold : R) : seq nat :=
  [seq nat_of_bool (threshold < s) | s <- scores].

(** Modelled from the spec: the thresholding of BaseDetector
    (pyod/models/base.py, not part of src/).  Section 4.3: "contamination in
    (0, 0.5) exclusive; fail InvalidParameter otherwise"; "threshold = the
    value at the ceil(n.(1-contamination))-th order statistic of scores";
    "label[i] = 1 if scores[i] > threshold else 0". *)
Definition fit_threshold (scores : seq R) (contamination : R)
    : result (R * seq nat) :=
  if valid_contamination contamination then
    let k := threshold_rank (size scores) contamination in
    let threshold := nth 0 (sort <=%R scores) k.-1 in
    inr (threshold, apply_threshold scores threshold)
  else inl InvalidParameter.

End Arrays.

Arguments is_finite {R} _.
Arguments NaN {R}.
Arguments PosInf {R}.
Arguments NegInf {R}.
Arguments Obj {R}.

(* --------------------------------------------------------------------- *)
(* Objects: the sklearn estimator and the MCD detector                    *)
(* --------------------------------------------------------------------- *)

(* The random_state argument: None (the generator shared through
   np.random), an int seed, or a RandomState instance, named by its place
   in the store of generator objects. *)
Inductive rstate :=
  | RsNone
  | RsSeed of int
  | RsInstance of nat.

Section Objects.

Variable R : archiRealFieldType.

(* What FastMCD estimates from a training set. *)
Record Estimate := mkEstimate {
  est_raw_location : seq R;
  est_raw_covariance : seq (seq R);
  est_raw_support : seq bool;
  est_location : seq R;
  est_covariance : seq (seq R);
  est_precision : seq (seq R);
  est_support : seq bool
}.

(* A sklearn MinCovDet object: its constructor arguments and, once its fit
   has completed, the estimates together with dist_. *)
Record MinCovDet := mkMinCovDet {
  mcd_store_precision : bool;
  mcd_assume_centered : bool;
  mcd_support_fraction : option R;
  mcd_random_state : rstate;
  mcd_fitted : option (Estimate * seq R)
}.

(* An MCD object: the constructor arguments, always present, and the
   attributes that exist only once fit has assigned them. *)
Record MCD := mkMCD {
  contamination : R;
  store_precision : bool;
  assume_centered : bool;
  support_fraction : option R;
  random_state : rstate;
  _classes : option nat;
  detector_ : option MinCovDet;
  decision_scores_ : option (seq R);
  threshold_ : option R;
  labels_ : option (seq nat)
}.

Definition hasattr (o : MCD) (a : attr) : bool :=
  match a with
  | a_detector_ => isSome (detector_ o)
  | a_decision_scores_ => isSome (decision_scores_ o)
  | a_threshold_ => isSome (threshold_ o)
  | a_labels_ => isSome (labels_ o)
  | _ => false
  end.

Definition set__classes (n : nat) (o : MCD) : MCD :=
  mkMCD (contamination o) (store_precision o) (assume_centered o)
    (support_fraction o) (random_state o) (Some n) (detector_ o)
    (decision_scores_ o) (threshold_ o) (labels_ o).

Definition set_detector_ (d : MinCovDet) (o : MCD) : MCD :=
  mkMCD (contamination o) (store_precision o) (assume_centered o)
    (support_fraction o) (random_state o) (_classes o) (Some d)
    (decision_scores_ o) (threshold_ o) (labels_ o).

Definition set_decision_scores_ (s : seq R) (o : MCD) : MCD :=
  mkMCD (contamination o) (store_precision o) (assume_centered o)
    (support_fraction o) (random_state o) (_classes o) (detector_ o)
    (Some s) (threshold_ o) (labels_ o).

Definition set_threshold_ (t : R) (o : MCD) : MCD :=
  mkMCD (contamination o) (store_precision o) (assume_centered o)
    (support_fraction o) (random_state o) (_classes o) (detector_ o)
    (decision_scores_ o) (Some t) (labels_ o).

Definition set_labels_ (l : seq nat) (o : MCD) : MCD :=
  mkMCD (contamination o) (store_precision o) (assume_centered o)
    (support_fraction o) (random_state o) (_classes o) (detector_ o)
    (decision_scores_ o) (threshold_ o) (Some l).

(* The object as __init__ leaves it: no fitted attribute yet. *)
Definition fresh (o : MCD) : MCD :=
  mkMCD (contamination o) (store_precision o) (assume_centered o)
    (support_fraction o) (random_state o) None None None None None.

End Objects.

Arguments est_raw_location {R} _.
Arguments est_raw_covariance {R} _.
Arguments est_raw_support {R} _.
Arguments est_location {R} _.
Arguments est_covariance {R} _.
Arguments est_precision {R} _.
Arguments est_support {R} _.
Arguments detector_ {R} _.
Arguments decision_scores_ {R} _.
Arguments threshold_ {R} _.
Arguments labels_ {R} _.

(* --------------------------------------------------------------------- *)
(* A small estimator to run the model with: rational data, generators    *)
(* that count their draws, the location taken from the sample the        *)
(* generator points at and the identity as covariance and precision.     *)
(* --------------------------------------------------------------------- *)

Definition unit_row (p i : nat) : seq rat := [seq (i == j)%:R | j <- iota 0 p].

Definition identity (p : nat) : seq (seq rat) :=
  [seq unit_row p i | i <- iota 0 p].

Definition toy_seed (k : int) : nat := `|k|%N.

Definition toy_fast_mcd (assume_centered : bool) (support_fraction : option rat)
    (g : nat) (X : ndarray rat) : result (Estimate rat) * nat :=
  let p := n_features X in
  let location :=
    if assume_centered then nseq p 0 else nth [::] X (g %% size X) in
  let support := nseq (size X) true in
  (inr (mkEstimate location (identity p) support
          location (identity p) (identity p) support), g.+1).

(* The same estimator, refusing a training set of fewer than two samples. *)
Definition picky_fast_mcd (assume_centered : bool)
    (support_fraction : option rat) (g : nat) (X : ndarray rat)
    : result (Estimate rat) * nat :=
  if (size X < 2)%N then (inl InvalidInput, g)
  else toy_fast_mcd assume_centered support_fraction g X.

Definition toy_n_classes (y : option (seq nat)) : nat :=
  if y is Some l then size (undup l) else 2.

(* --------------------------------------------------------------------- *)
(* Methods run against the object they are called on and the generators  *)
(* --------------------------------------------------------------------- *)

Section Detector.

Variable R : archiRealFieldType.

(* States of a pseudo random generator, and the generator an int seeds. *)
Variable rng : Type.
Variable seed_rng : int -> rng.

(* The FastMCD search itself belongs to the numerical library: it is given
   assume_centered, support_fraction, a generator and the training array,
   advances the generator, and returns the estimates or fails. *)
Variable fast_mcd :
  bool -> option R -> rng -> ndarray R -> result (Estimate R) * rng.

(* The class bookkeeping of BaseDetector._set_n_classes: a number computed
   from the optional labels y and from nothing else. *)
Variable n_classes : option (seq nat) -> nat.

Notation MCD := (MCD R).
Notation MinCovDet := (MinCovDet R).

Record state := mkState {
  self : MCD;
  np_random : rng;
  generators : nat -> rng
}.

Definition M (A : Type) : Type := state -> state * result A.

Definition ret {A : Type} (a : A) : M A := fun s => (s, inr a).

Definition raise {A : Type} (e : exn) : M A := fun s => (s, inl e).

Definition bind {A B : Type} (m : M A) (k : A -> M B) : M B :=
  fun s => let: (s', r) := m s in
           match r with inl e => (s', inl e) | inr a => k a s' end.

Definition lift {A : Type} (r : result A) : M A := fun s => (s, r).

Notation "x <-- m ;; k" := (bind m (fun x => k))
  (at level 61, m at next level, right associativity).
Notation "m ;; k" := (bind m (fun _ => k))
  (at level 61, right associativity).

Definition get_self : M MCD := fun s => (s, inr (self s)).

Definition getattr {A : Type} (a : attr) (f : MCD -> option A) : M A :=
  fun s => (s, if f (self s) is Some v then inr v else inl (AttributeError a)).

Definition setattr (f : MCD -> MCD) : M unit :=
  fun s => (mkState (f (self s)) (np_random s) (generators s), inr tt).

(* The generator behind a random_state, and the state in which that
   generator object has advanced to [g]: a shared generator keeps the new
   state, one made from a seed was local to the call. *)
Definition generator (rs : rstate) (s : state) : rng :=
  match rs with
  | RsNone => np_random s
  | RsSeed k => seed_rng k
  | RsInstance h => generators s h
  end.

Definition advanced (rs : rstate) (g : rng) (s : state) : state :=
  match rs with
  | RsNone => mkState (self s) g (generators s)
  | RsSeed _ => s
  | RsInstance h =>
      mkState (self s) (np_random s)
        (fun h' => if h' == h then g else generators s h')
  end.

(* sklearn's check_random_state. *)
Definition check_random_state (rs : rstate) : M rng :=
  fun s => (s, inr (generator rs s)).

Definition advance (rs : rstate) (g : rng) : M unit :=
  fun s => (advanced rs g s, inr tt).

(* Attribute lookups on the MinCovDet object. *)
Definition MinCovDet_attr {A : Type} (a : attr) (f : Estimate R -> A)
    (d : MinCovDet) : result A :=
  if mcd_fitted d is Some (e, _) then inr (f e) else inl (AttributeError a).

Definition MinCovDet_dist_ (d : MinCovDet) : result (seq R) :=
  if mcd_fitted d is Some (_, dist) then inr dist
  else inl (AttributeError a_dist_).

(* precision_ holds the matrix only if store_precision was set. *)
Definition MinCovDet_precision_ (d : MinCovDet)
    : result (option (seq (seq R))) :=
  MinCovDet_attr a_precision_
    (fun e => if mcd_store_precision d then Some (est_precision e) else None)
    d.

(** Modelled from the spec: MinCovDet.mahalanobis of sklearn, not part of
    src/.  Section 4.4: decision_function "returns MahalanobisScorer.score(X,
    location_, precision_)". *)
Definition MinCovDet_mahalanobis (d : MinCovDet) (X : ndarray R)
    : result (seq R) :=
  if mcd_fitted d is Some (e, _)
  then score X (est_location e) (est_precision e)
  else inl (AttributeError a_location_).

(** Modelled from the spec: MinCovDet.fit of sklearn, not part of src/, run
    on the object held in self.detector_.  Sections 3 and 4.4: the estimates
    come from FastMCD and dist_ is "one real value per training sample =
    squared Mahalanobis distance under the corrected estimate", the "scorer
    output on training X". *)
Definition MinCovDet_fit (X : ndarray R) : M unit :=
  d <-- getattr a_detector_ detector_ ;;
  g <-- check_random_state (mcd_random_state d) ;;
  let: (r, g') :=
    fast_mcd (mcd_assume_centered d) (mcd_support_fraction d) g X in
  advance (mcd_random_state d) g' ;;
  e <-- lift r ;;
  dist <-- lift (score X (est_location e) (est_precision e)) ;;
  setattr (set_detector_
    (mkMinCovDet (mcd_store_precision d) (mcd_assume_centered d)
       (mcd_support_fraction d) (mcd_random_state d) (Some (e, dist)))).

(** Modelled from the spec: check_is_fitted of sklearn, not part of src/.
    Section 4.4: decision_function "requires Fitted" and fails "with
    NotFitted in the Unfitted state": the error is raised unless the object
    has every attribute listed. *)
Definition check_is_fitted (attributes : seq attr) : M unit :=
  fun s => (s, if all (hasattr (self s)) attributes then inr tt
               else inl NotFitted).

(** Modelled from the spec: BaseDetector.__init__ (pyod/models/base.py, not
    part of src/).  Section 4.3: "contamination in (0, 0.5) exclusive; fail
    InvalidParameter otherwise". *)
Definition BaseDetector__init__ (contamination : R) : result R :=
  if valid_contamination contamination then inr contamination
  else inl InvalidParameter.

(** Modelled from the spec: BaseDetector._set_n_classes (not part of src/).
    Section 4.4: "determines number of classes present in optional labels y
    (informational only, does not affect the unsupervised algorithm)". *)
Definition _set_n_classes (y : option (seq nat)) : M unit :=
  setattr (set__classes (n_classes y)).

(** Modelled from the spec: BaseDetector._process_decision_scores (not part
    of src/).  Section 6: "equivalent to" the ThresholdingLayer of section
    4.3, applied to self.decision_scores_ and self.contamination; it assigns
    threshold_ and labels_. *)
Definition _process_decision_scores : M unit :=
  scores <-- getattr a_decision_scores_ decision_scores_ ;;
  o <-- get_self ;;
  tl <-- lift (fit_threshold scores (contamination o)) ;;
  setattr (set_threshold_ tl.1) ;;
  setattr (set_labels_ tl.2).

(* ---- class MCD(BaseDetector) ---------------------------------------- *)

Definition __init__ (contamination : R) (store_precision assume_centered : bool)
    (support_fraction : option R) (random_state : rstate) : result MCD :=
  match BaseDetector__init__ contamination with
  | inl err => inl err
  | inr c =>
      inr (mkMCD c store_precision assume_centered support_fraction
             random_state None None None None None)
  end.

Definition fit (X : array_like R) (y : option (seq nat)) : M unit :=
  X <-- lift (check_array X) ;;
  _set_n_classes y ;;
  o <-- get_self ;;
  setattr (set_detector_
    (mkMinCovDet (store_precision o) (assume_centered o)
       (support_fraction o) (random_state o) None)) ;;
  MinCovDet_fit X ;;
  d <-- getattr a_detector_ detector_ ;;
  dist <-- lift (MinCovDet_dist_ d) ;;
  setattr (set_decision_scores_ dist) ;;
  _process_decision_scores ;;
  ret tt.

Definition decision_function (X : array_like R) : M (seq R) :=
  check_is_fitted [:: a_decision_scores_; a_threshold_; a_labels_] ;;
  X <-- lift (check_array X) ;;
  d <-- getattr a_detector_ detector_ ;;
  lift (MinCovDet_mahalanobis d X).

Definition raw_location_ : M (seq R) :=
  d <-- getattr a_detector_ detector_ ;;
  lift (MinCovDet_attr a_raw_location_ est_raw_location d).

Definition raw_covariance_ : M (seq (seq R)) :=
  d <-- getattr a_detector_ detector_ ;;
  lift (MinCovDet_attr a_raw_covariance_ est_raw_covariance d).

Definition raw_support_ : M (seq bool) :=
  d <-- getattr a_detector_ detector_ ;;
  lift (MinCovDet_attr a_raw_support_ est_raw_support d).

Definition location_ : M (seq R) :=
  d <-- getattr a_detector_ detector_ ;;
  lift (MinCovDet_attr a_location_ est_location d).

Definition covariance_ : M (seq (seq R)) :=
  d <-- getattr a_detector_ detector_ ;;
  lift (MinCovDet_attr a_covariance_ est_covariance d).

Definition precision_ : M (option (seq (seq R))) :=
  d <-- getattr a_detector_ detector_ ;;
  lift (MinCovDet_precision_ d).

Definition support_ : M (seq bool) :=
  d <-- getattr a_detector_ detector_ ;;
  lift (MinCovDet_attr a_support_ est_support d).

(* The generator MinCovDet.fit draws from when fit is run in state [s]. *)
Definition source (s : state) : rng := generator (random_state (self s)) s.

(* The object a completed fit leaves behind. *)
Definition fitted_object (o : MCD) (y : option (seq nat)) (e : Estimate R)
    (dist : seq R) (t : R) (labs : seq nat) : MCD :=
  mkMCD (contamination o) (store_precision o) (assume_centered o)
    (support_fraction o) (random_state o) (Some (n_classes y))
    (Some (mkMinCovDet (store_precision o) (assume_centered o)
             (support_fraction o) (random_state o) (Some (e, dist))))
    (Some dist) (Some t) (Some labs).

(* check_is_fitted would let the object through. *)
Definition is_fitted (o : MCD) : bool :=
  all (hasattr o) [:: a_decision_scores_; a_threshold_; a_labels_].

(* What fit computes, as a function of the constructor arguments of the
   object, the generator it draws from and its arguments. *)
Definition fit_outcome (o : MCD) (g : rng) (X : array_like R)
    (y : option (seq nat)) : result MCD :=
  match check_array X with
  | inl err => inl err
  | inr X' =>
    match (fast_mcd (assume_centered o) (support_fraction o) g X').1 with
    | inl err => inl err
    | inr e =>
      match score X' (est_location e) (est_precision e) with
      | inl err => inl err
      | inr dist =>
        match fit_threshold dist (contamination o) with
        | inl err => inl err
        | inr tl => inr (fitted_object o y e dist tl.1 tl.2)
        end
      end
    end
  end.

(* The counterparts of a row vector and of a square matrix held as lists. *)
Definition to_rV (p : nat) (x : seq R) : 'rV[R]_p := \row_i nth 0 x i.

Definition to_M (p : nat) (A : seq (seq R)) : 'M[R]_p :=
  \matrix_(i, j) nth 0 (nth [::] A i) j.

(* --------------------------------------------------------------------- *)
(* fit, step by step                                                      *)
(* --------------------------------------------------------------------- *)

Lemma self_advanced rs g s : self (advanced rs g s) = self s.
Proof. by case: rs. Qed.

Lemma generator_self rs o s :
  generator rs (mkState o (np_random s) (generators s)) = generator rs s.
Proof. by case: rs. Qed.

Lemma fit_resultE X y st :
  (fit X y st).2 =
  if fit_outcome (self st) (source st) X y is inl err then inl err
  else inr tt.
Proof.
rewrite /fit /fit_outcome /bind /lift /source /get_self /=.
case: (check_array X) => [err|X'] //=.
rewrite /MinCovDet_fit /bind /= /check_random_state /advance /=.
rewrite generator_self.
case: (fast_mcd _ _ _ _) => [[err|e] g'] //=.
case: (score _ _ _) => [err|dist] //=.
rewrite /setattr /= self_advanced /=.
rewrite /_process_decision_scores /bind /lift /getattr /get_self /=.
by case: (fit_threshold _ _).
Qed.

Lemma fit_selfE X y st o' :
  fit_outcome (self st) (source st) X y = inr o' ->
  self (fit X y st).1 = o'.
Proof.
rewrite /fit /fit_outcome /bind /lift /source /get_self /=.
case: (check_array X) => [err|X'] //=.
rewrite /MinCovDet_fit /bind /= /check_random_state /advance /=.
rewrite generator_self.
case: (fast_mcd _ _ _ _) => [[err|e] g'] //=.
case: (score _ _ _) => [err|dist] //=.
rewrite /setattr /= self_advanced /=.
rewrite /_process_decision_scores /bind /lift /getattr /get_self /=.
by case: (fit_threshold _ _) => [err|tl] //= [<-].
Qed.

Lemma fit_okP X y st :
  is_ok (fit X y st).2 ->
  exists X' e dist tl,
    [/\ check_array X = inr X',
        (fast_mcd (assume_centered (self st)) (support_fraction (self st))
           (source st) X').1 = inr e,
        score X' (est_location e) (est_precision e) = inr dist,
        fit_threshold dist (contamination (self st)) = inr tl
      & self (fit X y st).1 = fitted_object (self st) y e dist tl.1 tl.2].
Proof.
rewrite fit_resultE.
case EO: (fit_outcome _ _ _ _) => [err|o'] // _.
rewrite (fit_selfE EO).
move: EO; rewrite /fit_outcome.
case EX: (check_array X) => [err|X'] //.
case EF: (fast_mcd _ _ _ _).1 => [err|e] //.
case ES: (score _ _ _) => [err|dist] //.
case ET: (fit_threshold _ _) => [err|tl] // [<-].
by exists X', e, dist, tl.
Qed.

Lemma fit_outcome_fresh o g X y :
  fit_outcome (fresh o) g X y = fit_outcome o g X y.
Proof. by case: o. Qed.

Lemma fit_hyperparameters X y st :
  is_ok (fit X y st).2 -> fresh (self (fit X y st).1) = fresh (self st).
Proof. by move=> /fit_okP [X' [e [dist [tl [_ _ _ _ ->]]]]]. Qed.

Lemma fit_is_fitted X y st :
  is_ok (fit X y st).2 -> is_fitted (self (fit X y st).1).
Proof. by move=> /fit_okP [X' [e [dist [tl [_ _ _ _ ->]]]]]. Qed.

(* --------------------------------------------------------------------- *)
(* decision_function and the accessors read the object and leave it alone *)
(* --------------------------------------------------------------------- *)

Lemma decision_functionE Z s :
  decision_function Z s =
  (s, if is_fitted (self s) then
        match check_array Z with
        | inl err => inl err
        | inr Z' =>
          if detector_ (self s) is Some d then MinCovDet_mahalanobis d Z'
          else inl (AttributeError a_detector_)
        end
      else inl NotFitted).
Proof.
rewrite /decision_function /bind /check_is_fitted /is_fitted /lift /getattr.
case: (all _ _) => //=.
case: (check_array Z) => [err|Z'] //=.
by case: (detector_ _).
Qed.

Lemma detector_attrE (A : Type) (f : MinCovDet -> result A) s :
  (d <-- getattr a_detector_ detector_ ;; lift (f d)) s =
  (s, if detector_ (self s) is Some d then f d
      else inl (AttributeError a_detector_)).
Proof. by rewrite /bind /getattr /lift; case: (detector_ _). Qed.

Lemma init_okP c sp ac sf rs o :
  __init__ c sp ac sf rs = inr o ->
  valid_contamination c /\
  o = mkMCD c sp ac sf rs None None None None None.
Proof.
rewrite /__init__ /BaseDetector__init__.
by case: (valid_contamination c) => // [[<-]].
Qed.

Lemma check_array_okP (X : array_like R) (X' : ndarray R) :
  check_array X = inr X' ->
  [/\ (0 < n_samples X')%N, (0 < n_features X')%N
     & all (fun r => size r == n_features X') X'].
Proof.
case: X => // rows; rewrite /check_array.
case: ifP => // /andP [/andP [/andP [n0 p0] rect] _] [<-].
rewrite /n_samples /n_features size_map; split=> //.
- by case: rows n0 p0 {rect} => //= r rows _; rewrite size_map.
- have -> : size (head [::] [seq [seq cell_val c | c <- r] | r <- rows])
            = size (head [::] rows).
    by case: (rows) => //= r _; rewrite size_map.
  by rewrite all_map; apply: sub_all rect => r /=; rewrite size_map.
Qed.

Lemma score_okP (X : ndarray R) loc P dist :
  score X loc P = inr dist ->
  all (fun x => size x == size loc) X /\
  dist = [seq sq_mahalanobis loc P x | x <- X].
Proof. by rewrite /score; case: ifP => // H [<-]. Qed.

Lemma all_flatten (T : Type) (a : pred T) (ss : seq (seq T)) :
  all a (flatten ss) = all (all a) ss.
Proof. by elim: ss => //= s ss IH; rewrite all_cat IH. Qed.

Lemma check_array_malformed (X : array_like R) :
  (ndim X != 2)%N || has (predC is_finite) (cells X) ->
  check_array X = inl InvalidInput.
Proof.
case: X => //= rows bad; rewrite /check_array.
case: ifP => // /andP [_ fin]; move: bad; rewrite has_predC.
by rewrite all_flatten fin.
Qed.

Lemma fit_invalid_input X y st err :
  check_array X = inl err -> fit X y st = (st, inl err).
Proof. by rewrite /fit /bind /lift => ->. Qed.

Lemma fit_outcome_seed o1 o2 g X y :
  fresh o1 = fresh o2 -> fit_outcome o1 g X y = fit_outcome o2 g X y.
Proof.
by move=> E; rewrite -(fit_outcome_fresh o1) E fit_outcome_fresh.
Qed.

Lemma fresh_random_state (o1 o2 : MCD) :
  fresh o1 = fresh o2 -> random_state o1 = random_state o2.
Proof. by case: o1; case: o2 => /= > [_ _ _ _ ->]. Qed.

(* Two runs of fit that start from the same constructor arguments and draw
   from the same generator end the same way and leave the same object. *)
Lemma fit_same_outcome X y st1 st2 :
  fresh (self st1) = fresh (self st2) -> source st1 = source st2 ->
  (fit X y st1).2 = (fit X y st2).2 /\
  (is_ok (fit X y st1).2 -> self (fit X y st1).1 = self (fit X y st2).1).
Proof.
move=> Eo Eg.
have EO : fit_outcome (self st1) (source st1) X y
          = fit_outcome (self st2) (source st2) X y.
  by rewrite -Eg; apply: fit_outcome_seed.
rewrite !fit_resultE EO; split=> //.
case EO2: (fit_outcome _ _ _ _) => [err|o'] // _.
by rewrite (fit_selfE EO2) (@fit_selfE X y st1 o') // EO.
Qed.

(* --------------------------------------------------------------------- *)
(* The order statistic behind the threshold                               *)
(* --------------------------------------------------------------------- *)

Lemma threshold_rank_floor (n : nat) (c : R) :
  valid_contamination c ->
  Posz (n - threshold_rank n c) = Num.floor (n%:R * c) /\
  ((0 < n)%N -> (0 < threshold_rank n c <= n)%N).
Proof.
move=> /andP [c0 c2]; set x := n%:R * c.
have x0 : 0 <= x by rewrite mulr_ge0 ?ler0n // ltW.
have c1 : c < 1 by apply: lt_trans c2 _; rewrite invf_lt1 ?ltr0n // ltr1n.
have f0 : 0 <= Num.floor x by rewrite floor_ge0.
have fn : (`|Num.floor x| <= n)%N.
  rewrite -lez_nat gez0_abs // -(ler_int R); apply: le_trans (floor_le x) _.
  by rewrite /x -pmulrn -[X in _ <= X]mulr1 ler_wpM2l ?ler0n // ltW.
have E : Num.ceil (n%:R * (1 - c)) = (n : int) - Num.floor x.
  rewrite mulrBr mulr1 -/x -[n%:R]/(n%:~R) ceilDzr ?intr_int // intrKceil.
  by rewrite ceilNfloor opprK.
have Ek : threshold_rank n c = (n - `|Num.floor x|)%N.
  by rewrite /threshold_rank E -{1}(gez0_abs f0) distnEl.
split; first by rewrite Ek subKn // gez0_abs.
move=> n0; rewrite Ek leq_subr andbT subn_gt0.
rewrite -ltz_nat gez0_abs // floor_lt_int /x.
by rewrite -pmulrn -[X in _ < X]mulr1 ltr_pM2l ?ltr0n.
Qed.

Lemma count_labels (scores : seq R) (t : R) :
  count (pred1 1%N) (apply_threshold scores t) = count (fun x => t < x) scores.
Proof.
rewrite /apply_threshold count_map; apply: eq_count => x /=.
by case: (t < x).
Qed.

Lemma order_statistic_count (s : seq R) (k : nat) :
  (0 < k <= size s)%N ->
  [/\ nth 0 (sort <=%R s) k.-1 \in s,
      (count (fun x => (nth 0 (sort <=%R s) k.-1 < x)%R) s <= size s - k)%N
    & uniq s ->
      count (fun x => nth 0 (sort <=%R s) k.-1 < x) s = (size s - k)%N].
Proof.
move=> /andP [k0 kn]; set ss := sort <=%R s; set t := nth 0 ss k.-1.
have sz : size ss = size s by rewrite size_sort.
have k1 : (k.-1 < size ss)%N by rewrite sz prednK.
have srt : sorted <=%R ss by apply: sort_le_sorted.
have Ec : (count (fun x => (t < x)%R) s + count (fun x => (x <= t)%R) ss)%N
          = size s.
  rewrite -(count_sort <=%R) -/ss -sz -(count_predC (fun x => t < x) ss).
  by congr (_ + _)%N; apply: eq_count => x /=; rewrite leNgt.
split.
- by rewrite -(mem_sort <=%R) mem_nth.
- have : (k <= count (fun x => (x <= t)%R) ss)%N.
    rewrite -{1}(cat_take_drop k ss) count_cat.
    apply: leq_trans (leq_addr _ _).
    have -> : count (fun x => x <= t) (take k ss) = size (take k ss).
      apply/eqP; rewrite -all_count; apply/(all_nthP 0) => i.
      rewrite size_takel ?sz // => ik; rewrite nth_take // /t.
      apply: (le_sorted_leq_nth 0 srt); rewrite ?inE -?sz //.
        by rewrite sz; exact: leq_trans ik kn.
      by rewrite -ltnS prednK.
    by rewrite size_takel ?sz.
  by move=> H; rewrite -{1}Ec -addnBA // leq_addr.
- move=> us; have slt : sorted <%R ss by rewrite sort_lt_sorted.
  have := count_le_nth 0 slt k1; rewrite -/t prednK // => Ek.
  by rewrite -{1}Ec Ek addnK.
Qed.

(* --------------------------------------------------------------------- *)
(* The scorer as a quadratic form                                         *)
(* --------------------------------------------------------------------- *)

Lemma psd_kernel (p : nat) (C : 'M[R]_p) (y : 'rV[R]_p) :
  C^T = C ->
  (forall v : 'rV[R]_p, 0 <= (v *m C *m v^T) 0 0) ->
  (y *m C *m y^T) 0 0 = 0 -> y *m C = 0.
Proof.
move=> symC psd q0; set z := y *m C.
pose b := (z *m z^T) 0 0.
have b0 : 0 <= b.
  by rewrite /b mxE sumr_ge0 // => i _; rewrite !mxE -expr2 sqr_ge0.
pose qz := (z *m C *m z^T) 0 0.
have qz0 : 0 <= qz by apply: psd.
pose s := (qz + 1)^-1.
have s0 : 0 < s by rewrite invr_gt0 ltr_wpDl.
have E1 : z *m C *m y^T = z *m z^T.
  by rewrite -mulmxA -{1}symC -trmx_mul.
have := psd (y - (s * b) *: z).
rewrite mulmxBl linearB /= mulmxBr !mulmxBl linearZ /=.
rewrite -(scalemxAl (s * b) z C) -(scalemxAl (s * b) (z *m C) y^T).
rewrite -(scalemxAr (s * b) (y *m C) z^T).
rewrite -(scalemxAl (s * b) (z *m C)) -(scalemxAr (s * b) (z *m C) z^T).
rewrite E1 -/z.
have subE (A B : 'M[R]_1) : (A - B) 0 0 = A 0 0 - B 0 0 by rewrite !mxE.
have sclE a (A : 'M[R]_1) : (a *: A) 0 0 = a * A 0 0 by rewrite !mxE.
rewrite !subE !sclE q0 -/b -/qz sub0r opprB addrA => H.
have sq1 : s * qz <= 1.
  by rewrite /s mulrC ler_pdivrMr ?ltr_wpDl // mul1r lerDl ler01.
have sbb0 : 0 <= s * b * b by rewrite !mulr_ge0 // ltW.
have : 0 <= - (s * b * b).
  apply: le_trans H _; rewrite -addrA gerDl subr_le0.
  have -> : s * b * (s * b * qz) = s * b * b * (s * qz).
    by rewrite -[RHS]mulrA; congr (_ * _); rewrite mulrA [b * s]mulrC.
  exact: ler_piMr.
rewrite oppr_ge0 -mulrA pmulr_rle0 // => bb0.
have /eqP : b * b = 0.
  by apply/eqP; rewrite eq_le bb0 /= -expr2 sqr_ge0.
rewrite mulf_eq0 orbb /b mxE psumr_eq0.
  by move=> i _; rewrite !mxE -expr2 sqr_ge0.
move=> /allP zz; apply/rowP => i; rewrite [RHS]mxE.
have := zz i (mem_index_enum _); rewrite /= !mxE mulf_eq0 orbb.
by move=> /eqP.
Qed.

Lemma psd_inverse_form (p : nat) (C : 'M[R]_p) (d : 'rV[R]_p) :
  C \in unitmx -> C^T = C ->
  (forall v : 'rV[R]_p, 0 <= (v *m C *m v^T) 0 0) ->
  0 <= (d *m invmx C *m d^T) 0 0 /\
  ((d *m invmx C *m d^T) 0 0 == 0) = (d == 0).
Proof.
move=> uC symC psd; set y := d *m invmx C.
have Ed : y *m C = d by rewrite /y mulmxKV.
have Eq : y *m d^T = y *m C *m y^T.
  by rewrite -[in LHS]Ed trmx_mul symC mulmxA.
rewrite Eq; split; first exact: psd.
apply/eqP/eqP => [q0|d0]; first by rewrite -Ed; apply: psd_kernel.
by rewrite /y d0 !mul0mx mxE.
Qed.

Lemma dot_cons a (x : seq R) b y : dot (a :: x) (b :: y) = a * b + dot x y.
Proof. by []. Qed.

Lemma dotC (x y : seq R) : dot x y = dot y x.
Proof.
elim: x y => [|a x IH] [|b y] //.
by rewrite !dot_cons mulrC IH.
Qed.

Lemma dotE p (x y : seq R) :
  size x = p -> dot x y = \sum_(i < p) nth 0 x i * nth 0 y i.
Proof.
elim: x p y => [|a x IH] [|p] y //= => [_|[sx]].
  by rewrite big_ord0; case: y.
case: y => [|b y].
  by rewrite big1 // => i _; rewrite nth_nil mulr0.
by rewrite dot_cons big_ord_recl /= (IH p).
Qed.

Lemma nth_mulmv (P : seq (seq R)) d i :
  nth 0 (mulmv P d) i = dot (nth [::] P i) d.
Proof.
rewrite /mulmv; case: (ltnP i (size P)) => iP; first by rewrite (nth_map [::]).
by rewrite !nth_default ?size_map //; case: d.
Qed.

Lemma size_vsub (x y : seq R) : size x = size y -> size (vsub x y) = size x.
Proof. by move=> E; rewrite /vsub size_map size_zip -E minnn. Qed.

Lemma nth_vsub (x y : seq R) i :
  size x = size y -> nth 0 (vsub x y) i = nth 0 x i - nth 0 y i.
Proof.
elim: x y i => [|a x IH] [|b y] [|i] //=; rewrite ?subr0 //.
by case=> /IH.
Qed.

Lemma to_rV_vsub p (x y : seq R) :
  size x = size y -> to_rV p (vsub x y) = to_rV p x - to_rV p y.
Proof. by move=> E; apply/rowP => i; rewrite !mxE nth_vsub. Qed.

Lemma to_rV_inj p (x y : seq R) :
  size x = p -> size y = p -> to_rV p x = to_rV p y -> x = y.
Proof.
move=> sx sy /rowP E; apply: (@eq_from_nth _ 0); first by rewrite sx sy.
move=> i; rewrite sx => ip.
by have := E (Ordinal ip); rewrite !mxE.
Qed.

Lemma sq_mahalanobisE p (loc : seq R) (P : seq (seq R)) (x : seq R) :
  size x = p -> size loc = p ->
  sq_mahalanobis loc P x =
  ((to_rV p x - to_rV p loc) *m to_M p P *m (to_rV p x - to_rV p loc)^T) 0 0.
Proof.
move=> sx sl; have sxl : size x = size loc by rewrite sx sl.
rewrite /sq_mahalanobis -to_rV_vsub //; set d := vsub x loc.
have sd : size d = p by rewrite /d size_vsub.
rewrite (dotE _ sd) -mulmxA mxE; apply: eq_bigr => i _.
rewrite !mxE; congr (_ * _).
rewrite nth_mulmv dotC (dotE _ sd); apply: eq_bigr => j _.
by rewrite !mxE mulrC.
Qed.

Lemma check_array_point (x : seq R) :
  (0 < size x)%N -> check_array (as_array_like [:: x]) = inr [:: x].
Proof.
move=> x0; rewrite /check_array /= /rectangular /= size_map eqxx x0 /=.
by rewrite andbT all_map (@eq_all _ _ predT) ?all_predT // -map_comp map_id_in.
Qed.

Lemma fit_location_size X y st X' :
  is_ok (fit X y st).2 -> check_array X = inr X' ->
  exists e dist,
    detector_ (self (fit X y st).1)
      = Some (mkMinCovDet (store_precision (self st))
                (assume_centered (self st)) (support_fraction (self st))
                (random_state (self st)) (Some (e, dist))) /\
    size (est_location e) = n_features X'.
Proof.
move=> ok EX.
have [X0 [e [dist [tl [EX0 _ /score_okP [HX _] _ Eself]]]]] := fit_okP ok.
move: EX0 HX; rewrite EX => -[<-] HX.
have [nX _ _] := check_array_okP EX.
exists e, dist; rewrite Eself; split=> //.
by case: (X') nX HX => //= r rs _ /andP [/eqP].
Qed.

(* --------------------------------------------------------------------- *)
(* Properties of the detector                                             *)
(* --------------------------------------------------------------------- *)

(** C1: after a fit that succeeded on X, decision_function on the same X
    returns the stored decision_scores_, element for element, and leaves the
    detector as it was. *)
Theorem decision_function_on_training_data X y st :
  is_ok (fit X y st).2 ->
  exists scores,
    decision_scores_ (self (fit X y st).1) = Some scores /\
    decision_function X (fit X y st).1 = ((fit X y st).1, inr scores).
Proof.
move=> /fit_okP [X' [e [dist [tl [EX _ ES _ Eself]]]]].
by exists dist; rewrite decision_functionE Eself /= EX /MinCovDet_mahalanobis /= ES.
Qed.

(** C2: on an object that __init__ has built and fit has not touched,
    decision_function raises NotFitted and returns no scores. *)
Theorem decision_function_before_fit c sp ac sf rs o g h X :
  __init__ c sp ac sf rs = inr o ->
  decision_function X (mkState o g h) = (mkState o g h, inl NotFitted).
Proof. by move=> /init_okP [_ ->]; rewrite decision_functionE. Qed.

(** C3 (as amended): on an object that __init__ has built and fit has not
    touched, each of the seven accessors fails, and the failure is the
    attribute error for the missing detector_, not NotFitted. *)
Theorem accessors_before_fit c sp ac sf rs o g h :
  __init__ c sp ac sf rs = inr o ->
  [/\ raw_location_ (mkState o g h)
        = (mkState o g h, inl (AttributeError a_detector_)),
      raw_covariance_ (mkState o g h)
        = (mkState o g h, inl (AttributeError a_detector_)),
      raw_support_ (mkState o g h)
        = (mkState o g h, inl (AttributeError a_detector_)),
      location_ (mkState o g h)
        = (mkState o g h, inl (AttributeError a_detector_))
    & [/\ covariance_ (mkState o g h)
            = (mkState o g h, inl (AttributeError a_detector_)),
          precision_ (mkState o g h)
            = (mkState o g h, inl (AttributeError a_detector_))
        & support_ (mkState o g h)
            = (mkState o g h, inl (AttributeError a_detector_))]].
Proof. by move=> /init_okP [_ ->]; do !split; rewrite detector_attrE. Qed.

(** C5: __init__ rejects a contamination outside the open interval (0, 0.5)
    with InvalidParameter, 0.6 in particular, and accepts every value inside
    it; fit cannot succeed on an object whose contamination lies outside, and
    once the data and the estimation have passed its error is
    InvalidParameter. *)
Theorem contamination_must_lie_in_open_interval :
  [/\ forall (c : R) sp ac sf rs,
        (0 < c < 2^-1) = false ->
        __init__ c sp ac sf rs = inl InvalidParameter,
      forall (c : R) sp ac sf rs,
        0 < c < 2^-1 ->
        __init__ c sp ac sf rs
          = inr (mkMCD c sp ac sf rs None None None None None),
      forall sp ac sf rs,
        __init__ (3%:R / 5%:R) sp ac sf rs = inl InvalidParameter
    & forall X y st,
        (0 < contamination (self st) < 2^-1) = false ->
        ~~ is_ok (fit X y st).2 /\
        forall X' e dist,
          check_array X = inr X' ->
          (fast_mcd (assume_centered (self st)) (support_fraction (self st))
             (source st) X').1 = inr e ->
          score X' (est_location e) (est_precision e) = inr dist ->
          (fit X y st).2 = inl InvalidParameter].
Proof.
split.
- by move=> c sp ac sf rs; rewrite /__init__ /BaseDetector__init__
    /valid_contamination => ->.
- by move=> c sp ac sf rs; rewrite /__init__ /BaseDetector__init__
    /valid_contamination => ->.
- move=> sp ac sf rs; rewrite /__init__ /BaseDetector__init__.
  rewrite /valid_contamination.
  have -> : (3%:R / 5%:R < 2^-1 :> R) = false; last by rewrite andbF.
  by rewrite ltr_pdivrMr ?ltr0n // ltr_pdivlMl ?ltr0n // -natrM ltr_nat.
- move=> X y st bad; split.
    apply/negP => /fit_okP [X' [e [dist [tl [_ _ _ + _]]]]].
    by rewrite /fit_threshold /valid_contamination bad.
  move=> X' e dist EX EF ES; rewrite fit_resultE /fit_outcome EX EF ES.
  by rewrite /fit_threshold /valid_contamination bad.
Qed.

(** C6: with an int seed as random_state, what fit computes from X is fixed
    by the constructor arguments: two runs on objects built with the same
    arguments end alike whatever the generators and the earlier attributes
    were, and leave the same raw_location_, covariance_, support_ and
    decision_scores_; so does a second run on the same object. *)
Theorem fit_is_deterministic_given_seed X y k st1 st2 :
  random_state (self st1) = RsSeed k ->
  fresh (self st1) = fresh (self st2) ->
  [/\ (fit X y st1).2 = (fit X y st2).2,
      is_ok (fit X y st1).2 ->
        [/\ (raw_location_ (fit X y st1).1).2
              = (raw_location_ (fit X y st2).1).2,
            (covariance_ (fit X y st1).1).2
              = (covariance_ (fit X y st2).1).2,
            (support_ (fit X y st1).1).2 = (support_ (fit X y st2).1).2
          & decision_scores_ (self (fit X y st1).1)
              = decision_scores_ (self (fit X y st2).1)]
    & is_ok (fit X y st1).2 ->
        (fit X y (fit X y st1).1).2 = inr tt /\
        self (fit X y (fit X y st1).1).1 = self (fit X y st1).1].
Proof.
move=> Ers Eo.
have Eg s : fresh (self st1) = fresh (self s) -> source st1 = source s.
  by move=> /fresh_random_state E; rewrite /source -E Ers.
have [Er Es] := fit_same_outcome X y Eo (Eg _ Eo); split=> // ok1.
- by rewrite /raw_location_ /covariance_ /support_ !detector_attrE /= Es.
- have Eo' := esym (fit_hyperparameters ok1).
  have [Er' Es'] := fit_same_outcome X y Eo' (Eg _ Eo').
  by rewrite -Er' -Es' //; case: (fit X y st1).2 ok1 => // [[]].
Qed.

(** C7: a fit that succeeds on an object leaves exactly what the same call
    leaves on a fresh instance built with the same constructor arguments:
    nothing of the earlier detector_, decision_scores_, threshold_ or labels_
    reaches the result. *)
Theorem refit_discards_prior_state X y st :
  is_ok (fit X y st).2 ->
  (fit X y (mkState (fresh (self st)) (np_random st) (generators st))).2
    = inr tt /\
  self (fit X y st).1 =
  self (fit X y (mkState (fresh (self st)) (np_random st) (generators st))).1.
Proof.
move=> ok1.
have Eo : fresh (self st) =
          fresh (self (mkState (fresh (self st)) (np_random st) (generators st))).
  by case: (self st).
have Eg : source st =
          source (mkState (fresh (self st)) (np_random st) (generators st)).
  by rewrite /source /= generator_self.
have [Er Es] := fit_same_outcome X y Eo Eg.
by rewrite -Er -Es //; case: (fit X y st).2 ok1 => // [[]].
Qed.

(** C8: once fit has succeeded on an array with p columns, decision_function
    on a valid array with another number of columns fails with
    DimensionMismatch and returns no scores. *)
Theorem decision_function_dimension_mismatch X y st Z X' Z' :
  is_ok (fit X y st).2 ->
  check_array X = inr X' -> check_array Z = inr Z' ->
  n_features Z' != n_features X' ->
  decision_function Z (fit X y st).1
    = ((fit X y st).1, inl DimensionMismatch).
Proof.
move=> ok EX EZ ne.
have [X0 [e [dist [tl [EX0 _ /score_okP [HX _] _ Eself]]]]] := fit_okP ok.
move: EX0 HX; rewrite EX => -[<-] HX.
rewrite decision_functionE Eself /= EZ /MinCovDet_mahalanobis /= /score.
have [nX _ _] := check_array_okP EX.
have [nZ _ _] := check_array_okP EZ.
have Eloc : size (est_location e) = n_features X'.
  by case: (X') nX HX => //= r rs _ /andP [/eqP].
case: ifP => // allZ.
case: (Z') nZ allZ ne => //= z zs _ /andP [/eqP Ez _].
by rewrite /n_features /= Ez Eloc eqxx.
Qed.


(** C10: decision_function validates its argument with the check_array that
    fit uses: on a fitted detector, an argument that check_array rejects is
    rejected by both with the same error, before anything is scored, and the
    detector is left as it was; an argument that is not a 2D array, or that
    holds a NaN, an infinite or a non-numeric entry, is rejected with
    InvalidInput. *)
Theorem decision_function_validates_like_fit X y st :
  is_fitted (self st) ->
  (forall err, check_array X = inl err ->
     decision_function X st = (st, inl err) /\ fit X y st = (st, inl err)) /\
  ((ndim X != 2)%N || has (predC is_finite) (cells X) ->
     decision_function X st = (st, inl InvalidInput) /\
     fit X y st = (st, inl InvalidInput)).
Proof.
move=> fitted.
have H err : check_array X = inl err ->
    decision_function X st = (st, inl err) /\ fit X y st = (st, inl err).
  move=> EX; split; last exact: fit_invalid_input.
  by rewrite decision_functionE fitted EX.
by split=> // /check_array_malformed /H.
Qed.


(* --------------------------------------------------------------------- *)
(* Further properties: what the methods touch and what a failed fit leaves *)
(* --------------------------------------------------------------------- *)

Lemma advanced_frame rs g o s :
  np_random (advanced rs g (mkState o (np_random s) (generators s)))
    = np_random (advanced rs g s) /\
  generators (advanced rs g (mkState o (np_random s) (generators s)))
    = generators (advanced rs g s).
Proof. by case: rs. Qed.

(* The generators after fit has reached the estimator: those of the state
   in which the generator behind random_state has advanced as far as the
   search took it. *)
Lemma fit_generators X y st X' :
  check_array X = inr X' ->
  np_random (fit X y st).1
    = np_random (advanced (random_state (self st))
        (fast_mcd (assume_centered (self st)) (support_fraction (self st))
           (source st) X').2 st) /\
  generators (fit X y st).1
    = generators (advanced (random_state (self st))
        (fast_mcd (assume_centered (self st)) (support_fraction (self st))
           (source st) X').2 st).
Proof.
rewrite /fit /bind /lift /source /get_self /= => ->.
rewrite /MinCovDet_fit /bind /= /check_random_state /advance /=.
rewrite generator_self.
case: (fast_mcd _ _ _ _) => [[err|e] g'] /=; first exact: advanced_frame.
case: (score _ _ _) => [err|dist] /=; first exact: advanced_frame.
rewrite /setattr /= self_advanced /=.
rewrite /_process_decision_scores /bind /lift /getattr /get_self /=.
by case: (fit_threshold _ _) => [err|tl] /=; exact: advanced_frame.
Qed.

(* A fit that fails inside the estimator. *)
Lemma fit_estimator_failure X y st X' err :
  check_array X = inr X' ->
  (fast_mcd (assume_centered (self st)) (support_fraction (self st))
     (source st) X').1 = inl err ->
  (fit X y st).2 = inl err /\
  self (fit X y st).1 =
  set_detector_
    (mkMinCovDet (store_precision (self st)) (assume_centered (self st))
       (support_fraction (self st)) (random_state (self st)) None)
    (set__classes (n_classes y) (self st)).
Proof.
rewrite /fit /bind /lift /source /get_self /= => ->.
rewrite /MinCovDet_fit /bind /= /check_random_state /advance /=.
rewrite generator_self.
by case: (fast_mcd _ _ _ _) => [[err'|e] g'] //= [->]; rewrite self_advanced.
Qed.

(** X1: decision_function and the seven accessors only read the object:
    whatever the argument and the state, they return the state they were
    given, and their result is the same under any other generators. *)
Theorem read_only_methods X s g h :
  [/\ decision_function X s
        = (s, (decision_function X (mkState (self s) g h)).2),
      raw_location_ s = (s, (raw_location_ (mkState (self s) g h)).2),
      raw_covariance_ s = (s, (raw_covariance_ (mkState (self s) g h)).2),
      raw_support_ s = (s, (raw_support_ (mkState (self s) g h)).2)
    & [/\ location_ s = (s, (location_ (mkState (self s) g h)).2),
          covariance_ s = (s, (covariance_ (mkState (self s) g h)).2),
          precision_ s = (s, (precision_ (mkState (self s) g h)).2)
        & support_ s = (s, (support_ (mkState (self s) g h)).2)]].
Proof.
rewrite !decision_functionE /raw_location_ /raw_covariance_ /raw_support_.
by rewrite /location_ /covariance_ /precision_ /support_ !detector_attrE.
Qed.

(** X2: fit never changes the constructor arguments of the detector,
    whether it succeeds or fails and wherever it fails. *)
Theorem fit_keeps_constructor_arguments X y st :
  [/\ contamination (self (fit X y st).1) = contamination (self st),
      store_precision (self (fit X y st).1) = store_precision (self st),
      assume_centered (self (fit X y st).1) = assume_centered (self st),
      support_fraction (self (fit X y st).1) = support_fraction (self st)
    & random_state (self (fit X y st).1) = random_state (self st)].
Proof.
rewrite /fit /bind /lift /get_self /=.
case: (check_array X) => [err|X'] //=.
rewrite /MinCovDet_fit /bind /= /check_random_state /advance /=.
case: (fast_mcd _ _ _ _) => [[err|e] g'] /=; first by rewrite self_advanced.
case: (score _ _ _) => [err|dist] /=; first by rewrite self_advanced.
rewrite /setattr /= self_advanced /=.
rewrite /_process_decision_scores /bind /lift /getattr /get_self /=.
by case: (fit_threshold _ _).
Qed.

(** X3: which generators fit can touch.  With an int seed fit leaves the
    generator of np.random and every RandomState instance as they were;
    with None only the generator of np.random moves, and it ends where the
    search left it; with a RandomState instance only that instance moves.
    An argument that check_array rejects moves nothing. *)
Theorem fit_generator_effects X y st :
  match check_array X with
  | inl _ => (fit X y st).1 = st
  | inr X' =>
      match random_state (self st) with
      | RsSeed _ =>
          np_random (fit X y st).1 = np_random st /\
          generators (fit X y st).1 = generators st
      | RsNone =>
          np_random (fit X y st).1
            = (fast_mcd (assume_centered (self st))
                 (support_fraction (self st)) (np_random st) X').2 /\
          generators (fit X y st).1 = generators st
      | RsInstance i =>
          [/\ np_random (fit X y st).1 = np_random st,
              generators (fit X y st).1 i
                = (fast_mcd (assume_centered (self st))
                     (support_fraction (self st)) (generators st i) X').2
            & forall j, j != i ->
                generators (fit X y st).1 j = generators st j]
      end
  end.
Proof.
case EX: (check_array X) => [err|X']; first by rewrite (fit_invalid_input _ _ EX).
have [-> ->] := fit_generators y st EX; rewrite /source.
case: (random_state _) => [|k|i] //=; split=> //; first by rewrite eqxx.
by move=> j /negPf ->.
Qed.

(** X4: after a fit that succeeded, the seven accessors return the
    attributes of one estimate, the one the search computed from the
    validated training array with the assume_centered and support_fraction
    of the detector; precision_ holds the matrix only if the detector was
    built with store_precision, and is None otherwise. *)
Theorem accessors_after_fit X y st :
  is_ok (fit X y st).2 ->
  exists X' e,
    [/\ check_array X = inr X',
        (fast_mcd (assume_centered (self st)) (support_fraction (self st))
           (source st) X').1 = inr e,
        [/\ raw_location_ (fit X y st).1
              = ((fit X y st).1, inr (est_raw_location e)),
            raw_covariance_ (fit X y st).1
              = ((fit X y st).1, inr (est_raw_covariance e))
          & raw_support_ (fit X y st).1
              = ((fit X y st).1, inr (est_raw_support e))],
        [/\ location_ (fit X y st).1
              = ((fit X y st).1, inr (est_location e)),
            covariance_ (fit X y st).1
              = ((fit X y st).1, inr (est_covariance e))
          & support_ (fit X y st).1
              = ((fit X y st).1, inr (est_support e))]
      & precision_ (fit X y st).1
          = ((fit X y st).1,
             inr (if store_precision (self st) then Some (est_precision e)
                  else None))].
Proof.
move=> /fit_okP [X' [e [dist [tl [EX EF _ _ Eself]]]]].
exists X', e; split=> //; rewrite ?/raw_location_ ?/raw_covariance_
  ?/raw_support_ ?/location_ ?/covariance_ ?/support_ ?/precision_;
  by rewrite ?detector_attrE ?Eself; do ?split; rewrite ?detector_attrE ?Eself.
Qed.

(** X5: a fit that fails inside the estimator on a detector that was fitted
    before keeps the old decision_scores_, threshold_ and labels_, so the
    detector still passes check_is_fitted, but its detector_ is now an
    estimator that was never fitted: decision_function fails on every
    argument. *)
Theorem failed_refit_leaves_stale_scores X y st X' err :
  is_fitted (self st) ->
  check_array X = inr X' ->
  (fast_mcd (assume_centered (self st)) (support_fraction (self st))
     (source st) X').1 = inl err ->
  [/\ (fit X y st).2 = inl err,
      [/\ decision_scores_ (self (fit X y st).1) = decision_scores_ (self st),
          threshold_ (self (fit X y st).1) = threshold_ (self st)
        & labels_ (self (fit X y st).1) = labels_ (self st)],
      is_fitted (self (fit X y st).1)
    & forall Z, ~~ is_ok (decision_function Z (fit X y st).1).2].
Proof.
move=> fitted EX EF; have [Er Es] := fit_estimator_failure y EX EF.
split=> //; rewrite ?Es //.
move=> Z; rewrite decision_functionE Es /=.
by case: ifP => // _; case: (check_array Z).
Qed.


(** X7: after a fit that succeeded on an array with p columns,
    decision_function succeeds exactly on the arguments that pass
    check_array and have p columns; it then returns one score per row, and
    the score of a row does not depend on the other rows. *)
Theorem decision_function_after_fit X y st X' :
  is_ok (fit X y st).2 -> check_array X = inr X' ->
  exists f : seq R -> R,
    forall Z,
      (decision_function Z (fit X y st).1).2 =
      match check_array Z with
      | inl err => inl err
      | inr Z' =>
          if n_features Z' == n_features X' then inr [seq f z | z <- Z']
          else inl DimensionMismatch
      end.
Proof.
move=> ok EX.
have [X0 [e [dist [tl [EX0 _ /score_okP [HX _] _ Eself]]]]] := fit_okP ok.
move: EX0 HX; rewrite EX => -[<-] HX.
have [nX _ _] := check_array_okP EX.
have Eloc : size (est_location e) = n_features X'.
  by case: (X') nX HX => //= r rs _ /andP [/eqP].
exists (sq_mahalanobis (est_location e) (est_precision e)) => Z.
rewrite decision_functionE Eself /=.
case EZ: (check_array Z) => [err|Z'] //.
rewrite /MinCovDet_mahalanobis /= /score Eloc.
have [nZ _ rect] := check_array_okP EZ.
case: eqP => [<-|ne]; first by rewrite rect.
case: ifP => // allZ; case: ne.
by case: (Z') nZ allZ => //= z zs _ /andP [/eqP].
Qed.

End Detector.

(* --------------------------------------------------------------------- *)
(* Runs of the model on concrete data                                     *)
(* --------------------------------------------------------------------- *)

Local Notation run_fit := (fit toy_seed toy_fast_mcd toy_n_classes).

(* Five samples of one feature, and two samples of two features. *)
Local Notation X5 :=
  (List2 [:: [:: Num (0 : rat)]; [:: Num 1]; [:: Num 2%:R]; [:: Num 3%:R];
             [:: Num 4%:R]]).
Local Notation Z2 := (List2 [:: [:: Num (0 : rat); Num 1]; [:: Num 1; Num 1]]).

(* A detector as __init__ builds it, with a seed as random_state, in a
   state whose generators have not been drawn from. *)
Local Notation detector c :=
  (mkMCD (c : rat) true false None (RsSeed 0) None None None None None).
Local Notation start c := (mkState (detector c) 0%N (fun _ => 0%N)).

Lemma decision_function_on_training_data_witness :
  exists scores : seq rat,
    decision_scores_ (self (run_fit X5 None (start (10%:R^-1))).1)
      = Some scores /\
    decision_function X5 (run_fit X5 None (start (10%:R^-1))).1
      = ((run_fit X5 None (start (10%:R^-1))).1, inr scores).
Proof.
apply: decision_function_on_training_data.
by vm_compute.
Defined.

Lemma decision_function_before_fit_witness :
  decision_function X5 (start (10%:R^-1))
    = (start (10%:R^-1), inl NotFitted).
Proof.
apply: (@decision_function_before_fit _ _ (10%:R^-1) true false None (RsSeed 0)).
rewrite /__init__ /BaseDetector__init__.
by rewrite (_ : valid_contamination _ = true) //; vm_compute.
Defined.

Lemma accessor_error_counterexample :
  [/\ __init__ (10%:R^-1 : rat) true false None (RsSeed 0)
        = inr (detector (10%:R^-1)),
      (raw_location_ (start (10%:R^-1))).2 = inl (AttributeError a_detector_)
    & (raw_location_ (start (10%:R^-1))).2 <> inl NotFitted].
Proof. by split. Qed.

Lemma accessors_before_fit_witness :
  [/\ raw_location_ (start (10%:R^-1))
        = (start (10%:R^-1), inl (AttributeError a_detector_)),
      raw_covariance_ (start (10%:R^-1))
        = (start (10%:R^-1), inl (AttributeError a_detector_)),
      raw_support_ (start (10%:R^-1))
        = (start (10%:R^-1), inl (AttributeError a_detector_)),
      location_ (start (10%:R^-1))
        = (start (10%:R^-1), inl (AttributeError a_detector_))
    & [/\ covariance_ (start (10%:R^-1))
            = (start (10%:R^-1), inl (AttributeError a_detector_)),
          precision_ (start (10%:R^-1))
            = (start (10%:R^-1), inl (AttributeError a_detector_))
        & support_ (start (10%:R^-1))
            = (start (10%:R^-1), inl (AttributeError a_detector_))]].
Proof.
apply: (@accessors_before_fit _ _ (10%:R^-1) true false None (RsSeed 0)).
rewrite /__init__ /BaseDetector__init__.
by rewrite (_ : valid_contamination _ = true) //; vm_compute.
Defined.



(* The detector after an earlier fit on other data, with other generators. *)
Local Notation refitted c :=
  (run_fit Z2 None (mkState (detector c) 7%N (fun _ => 3%N))).1.

Lemma fit_is_deterministic_given_seed_witness :
  [/\ (run_fit X5 None (start (10%:R^-1))).2
        = (run_fit X5 None (refitted (10%:R^-1))).2,
      is_ok (run_fit X5 None (start (10%:R^-1))).2 ->
        [/\ (raw_location_ (run_fit X5 None (start (10%:R^-1))).1).2
              = (raw_location_ (run_fit X5 None (refitted (10%:R^-1))).1).2,
            (covariance_ (run_fit X5 None (start (10%:R^-1))).1).2
              = (covariance_ (run_fit X5 None (refitted (10%:R^-1))).1).2,
            (support_ (run_fit X5 None (start (10%:R^-1))).1).2
              = (support_ (run_fit X5 None (refitted (10%:R^-1))).1).2
          & decision_scores_ (self (run_fit X5 None (start (10%:R^-1))).1)
              = decision_scores_
                  (self (run_fit X5 None (refitted (10%:R^-1))).1)]
    & is_ok (run_fit X5 None (start (10%:R^-1))).2 ->
        (run_fit X5 None (run_fit X5 None (start (10%:R^-1))).1).2 = inr tt /\
        self (run_fit X5 None (run_fit X5 None (start (10%:R^-1))).1).1
          = self (run_fit X5 None (start (10%:R^-1))).1].
Proof.
by apply: (@fit_is_deterministic_given_seed _ _ _ _ _ X5 None 0).
Defined.

Lemma refit_discards_prior_state_witness :
  (run_fit X5 None
     (mkState (fresh (self (refitted (10%:R^-1))))
        (np_random (refitted (10%:R^-1)))
        (generators (refitted (10%:R^-1))))).2 = inr tt /\
  self (run_fit X5 None (refitted (10%:R^-1))).1 =
  self (run_fit X5 None
          (mkState (fresh (self (refitted (10%:R^-1))))
             (np_random (refitted (10%:R^-1)))
             (generators (refitted (10%:R^-1))))).1.
Proof.
apply: refit_discards_prior_state.
by vm_compute.
Defined.

Lemma decision_function_dimension_mismatch_witness :
  decision_function Z2 (run_fit X5 None (start (10%:R^-1))).1
    = ((run_fit X5 None (start (10%:R^-1))).1, inl DimensionMismatch).
Proof.
apply: (@decision_function_dimension_mismatch _ _ _ _ _ X5 None _ Z2
          [:: [:: 0]; [:: 1]; [:: 2%:R]; [:: 3%:R]; [:: 4%:R]]
          [:: [:: 0; 1]; [:: 1; 1]]).
- by vm_compute.
- by vm_compute.
- by vm_compute.
- by [].
Defined.

(* An argument with a NaN entry. *)
Local Notation with_nan := (List2 [:: [:: Num (1 : rat); NaN]]).

Lemma decision_function_validates_like_fit_witness :
  (forall err, check_array with_nan = inl err ->
     decision_function with_nan (run_fit X5 None (start (10%:R^-1))).1
       = ((run_fit X5 None (start (10%:R^-1))).1, inl err) /\
     run_fit with_nan None (run_fit X5 None (start (10%:R^-1))).1
       = ((run_fit X5 None (start (10%:R^-1))).1, inl err)) /\
  ((ndim with_nan != 2)%N || has (predC is_finite) (cells with_nan) ->
     decision_function with_nan (run_fit X5 None (start (10%:R^-1))).1
       = ((run_fit X5 None (start (10%:R^-1))).1, inl InvalidInput) /\
     run_fit with_nan None (run_fit X5 None (start (10%:R^-1))).1
       = ((run_fit X5 None (start (10%:R^-1))).1, inl InvalidInput)).
Proof.
apply: decision_function_validates_like_fit.
by vm_compute.
Defined.

(* Three samples of two features; the estimator places the location at the
   first of them and returns the identity as covariance and precision. *)
Local Notation X3 :=
  (List2 [:: [:: Num (0 : rat); Num 0]; [:: Num 1; Num 0]; [:: Num 0; Num 1]]).

Lemma to_M_identity (p : nat) : to_M p (identity p) = 1%:M.
Proof.
apply/matrixP => i j; rewrite !mxE /identity /unit_row.
rewrite (nth_map 0%N) ?size_iota // (nth_map 0%N) ?size_map ?size_iota //.
by rewrite !nth_iota.
Qed.


(* A single sample, which the second estimator refuses, and runs of fit
   with that estimator. *)
Local Notation X1 := (List2 [:: [:: Num (7%:R : rat)]]).
Local Notation run_picky := (fit toy_seed picky_fast_mcd toy_n_classes).

Lemma accessors_after_fit_witness :
  exists (X' : ndarray rat) (e : Estimate rat),
    [/\ check_array X3 = inr X',
        (toy_fast_mcd (assume_centered (self (start (10%:R^-1))))
           (support_fraction (self (start (10%:R^-1))))
           (source toy_seed (start (10%:R^-1))) X').1 = inr e,
        [/\ raw_location_ (run_fit X3 None (start (10%:R^-1))).1
              = ((run_fit X3 None (start (10%:R^-1))).1,
                 inr (est_raw_location e)),
            raw_covariance_ (run_fit X3 None (start (10%:R^-1))).1
              = ((run_fit X3 None (start (10%:R^-1))).1,
                 inr (est_raw_covariance e))
          & raw_support_ (run_fit X3 None (start (10%:R^-1))).1
              = ((run_fit X3 None (start (10%:R^-1))).1,
                 inr (est_raw_support e))],
        [/\ location_ (run_fit X3 None (start (10%:R^-1))).1
              = ((run_fit X3 None (start (10%:R^-1))).1,
                 inr (est_location e)),
            covariance_ (run_fit X3 None (start (10%:R^-1))).1
              = ((run_fit X3 None (start (10%:R^-1))).1,
                 inr (est_covariance e))
          & support_ (run_fit X3 None (start (10%:R^-1))).1
              = ((run_fit X3 None (start (10%:R^-1))).1,
                 inr (est_support e))]
      & precision_ (run_fit X3 None (start (10%:R^-1))).1
          = ((run_fit X3 None (start (10%:R^-1))).1,
             inr (if store_precision (self (start (10%:R^-1)))
                  then Some (est_precision e) else None))].
Proof.
apply: accessors_after_fit.
by vm_compute.
Defined.

Lemma failed_refit_leaves_stale_scores_witness :
  [/\ (run_picky X1 None (run_picky X5 None (start (10%:R^-1))).1).2
        = inl InvalidInput,
      [/\ decision_scores_
            (self (run_picky X1 None
                     (run_picky X5 None (start (10%:R^-1))).1).1)
            = decision_scores_
                (self (run_picky X5 None (start (10%:R^-1))).1),
          threshold_
            (self (run_picky X1 None
                     (run_picky X5 None (start (10%:R^-1))).1).1)
            = threshold_ (self (run_picky X5 None (start (10%:R^-1))).1)
        & labels_
            (self (run_picky X1 None
                     (run_picky X5 None (start (10%:R^-1))).1).1)
            = labels_ (self (run_picky X5 None (start (10%:R^-1))).1)],
      is_fitted
        (self (run_picky X1 None (run_picky X5 None (start (10%:R^-1))).1).1)
    & forall Z,
        ~~ is_ok
             (decision_function Z
                (run_picky X1 None
                   (run_picky X5 None (start (10%:R^-1))).1).1).2].
Proof.
apply: (@failed_refit_leaves_stale_scores _ _ _ _ _ X1 None _ [:: [:: 7%:R]]).
- by vm_compute.
- by [].
- by [].
Defined.


Lemma decision_function_after_fit_witness :
  exists f : seq rat -> rat,
    forall Z,
      (decision_function Z (run_fit X3 None (start (10%:R^-1))).1).2 =
      match check_array Z with
      | inl err => inl err
      | inr Z' =>
          if n_features Z'
               == n_features [:: [:: 0; 0]; [:: 1; 0]; [:: 0; 1 : rat]]
          then inr [seq f z | z <- Z']
          else inl DimensionMismatch
      end.
Proof.
by apply: (@decision_function_after_fit _ _ _ _ _ X3 None).
Defined.
